(** * django-durationfield: the model field [DurationField]

    A shallow embedding of [durationfield/db/models/fields/duration.py]:
    the constructor [__init__], the encoder [get_db_prep_value] and the
    decoder [to_python] of the field, over a model of the part of Python's
    [datetime.timedelta] and of Django's [smart_text] that they call, and
    the methods [deconstruct] and [formfield], over a model of the
    dictionaries of keyword arguments. *)

From Stdlib Require Import ZArith List String Ascii Bool Lia DecimalString.
Import ListNotations.
Local Open Scope string_scope.
Local Open Scope Z_scope.

(** ** Exceptions and results *)

(** The two messages of [default_error_messages]. *)
Inductive error_code : Type :=
| invalid
| unknown_type.

(** The exceptions the modelled code can raise. *)
Inductive exn : Type :=
| NotImplementedError
| AttributeError
| OverflowError
| TypeError
| ValueError
| ValidationError (code : error_code).

Inductive result (A : Type) : Type :=
| Ok (a : A)
| Raise (e : exn).

Arguments Ok {A} a.
Arguments Raise {A} e.

Definition bind {A B : Type} (r : result A) (k : A -> result B) : result B :=
  match r with
  | Ok a => k a
  | Raise e => Raise e
  end.

Definition fmap {A B : Type} (f : A -> B) (r : result A) : result B :=
  bind r (fun a => Ok (f a)).

Declare Scope py_scope.
Delimit Scope py_scope with py.
Notation "x <- r ;; k" := (bind r (fun x => k))
  (at level 61, r at next level, right associativity) : py_scope.
Local Open Scope py_scope.

(** ** [datetime.timedelta] *)

Module Timedelta.

(** The three fields a [timedelta] object stores. *)
Record t : Type := mk { days : Z; seconds : Z; microseconds : Z }.

(** [timedelta.max.days]: the constructor refuses a larger magnitude. *)
Definition max_days : Z := 999999999.

(** [timedelta(days=d, seconds=s, microseconds=us)] on integers: the
    microseconds are carried into the seconds and the seconds into the
    days with [divmod], and a day count out of range is an
    [OverflowError]. *)
Definition new (d s us : Z) : result t :=
  let us' := us mod 1000000 in
  let s1 := s + us / 1000000 in
  let s' := s1 mod (24 * 3600) in
  let d' := d + s1 / (24 * 3600) in
  if Z.abs d' >? max_days then Raise OverflowError
  else Ok (mk d' s' us').

(** [timedelta] called with the single keyword argument [key=value],
    as the field does through a one-entry [kwargs] dictionary. *)
Definition of_kwarg (key : string) (value : Z) : result t :=
  if String.eqb key "days" then new value 0 0
  else if String.eqb key "seconds" then new 0 value 0
  else if String.eqb key "microseconds" then new 0 0 value
  else if String.eqb key "milliseconds" then new 0 0 (value * 1000)
  else if String.eqb key "minutes" then new 0 (value * 60) 0
  else if String.eqb key "hours" then new 0 (value * 3600) 0
  else if String.eqb key "weeks" then new (value * 7) 0 0
  else Raise TypeError.

(** [timedelta.__neg__]. *)
Definition neg (v : t) : result t :=
  new (- days v) (- seconds v) (- microseconds v).

(** [timedelta.__abs__]. *)
Definition abs (v : t) : result t :=
  if days v <? 0 then neg v else Ok v.

(** The span in microseconds, the magnitude that orders [timedelta]s. *)
Definition total_microseconds (v : t) : Z :=
  (days v * (24 * 3600) + seconds v) * 1000000 + microseconds v.

(** The invariant of every [timedelta] object. *)
Definition valid (v : t) : Prop :=
  - max_days <= days v <= max_days
  /\ 0 <= seconds v < 24 * 3600
  /\ 0 <= microseconds v < 1000000.

Definition pad2 (n : Z) : string :=
  let s := NilZero.string_of_int (Z.to_int n) in
  if n <? 10 then "0" ++ s else s.

Definition pad6 (n : Z) : string :=
  let s := NilZero.string_of_int (Z.to_int n) in
  substring (String.length s) 6 ("000000" ++ s).

(** [timedelta.__str__]: ["D day[s], H:MM:SS[.UUUUUU]"]. *)
Definition to_string (v : t) : string :=
  let mm := seconds v / 60 in
  let hms :=
    NilZero.string_of_int (Z.to_int (mm / 60)) ++ ":" ++ pad2 (mm mod 60)
    ++ ":" ++ pad2 (seconds v mod 60) in
  let dpart :=
    if days v =? 0 then ""
    else NilZero.string_of_int (Z.to_int (days v)) ++ " day"
         ++ (if Z.abs (days v) =? 1 then "" else "s") ++ ", " in
  let upart :=
    if microseconds v =? 0 then "" else "." ++ pad6 (microseconds v) in
  dpart ++ hms ++ upart.

End Timedelta.

(** ** Python values *)

(** The values that reach the field: [None], an integer, a [timedelta], a
    text string, a float (known by its [repr], which is also the text that
    [str] gives for it) and a lazy translation proxy (Django's [Promise]). *)
Inductive PyValue : Type :=
| PyNone
| PyInt (n : Z)
| PyTimedelta (v : Timedelta.t)
| PyText (s : string)
| PyFloat (repr : string)
| PyPromise.

(** The builtin [abs]. *)
Definition py_abs (value : PyValue) : result PyValue :=
  match value with
  | PyInt n => Ok (PyInt (Z.abs n))
  | PyTimedelta v => fmap PyTimedelta (Timedelta.abs v)
  | PyFloat (String "-" r) => Ok (PyFloat r)
  | PyFloat _ => Ok value
  | PyNone | PyText _ | PyPromise => Raise TypeError
  end.

(** The attribute reads [value.days], [value.seconds] and
    [value.microseconds]: only a [timedelta] has them. *)
Definition getattr (field : Timedelta.t -> Z) (value : PyValue) : result Z :=
  match value with
  | PyTimedelta v => Ok (field v)
  | _ => Raise AttributeError
  end.

(** [django.utils.encoding.smart_text]: a lazy proxy is returned as it is,
    a text string too, and anything else is converted to text. *)
Definition smart_text (s : PyValue) : PyValue :=
  match s with
  | PyPromise => s
  | PyText _ => s
  | PyNone => PyText "None"
  | PyInt n => PyText (NilZero.string_of_int (Z.to_int n))
  | PyTimedelta v => PyText (Timedelta.to_string v)
  | PyFloat r => PyText r
  end.

(** ** Python dictionaries with string keys *)

Module PyDict.

(** A [dict] whose keys are strings, as keyword arguments are: the
    entries in insertion order, no key twice. *)
Definition t (V : Type) : Type := list (string * V).

(** [d.get(key)]. *)
Fixpoint get {V : Type} (key : string) (d : t V) : option V :=
  match d with
  | [] => None
  | (k, v) :: d' => if String.eqb key k then Some v else get key d'
  end.

(** [d[key] = value]: the entry of [key] is replaced where it stands, or
    a new entry is added at the end. *)
Fixpoint setitem {V : Type} (key : string) (value : V) (d : t V) : t V :=
  match d with
  | [] => [(key, value)]
  | (k, v) :: d' =>
    if String.eqb key k then (key, value) :: d'
    else (k, v) :: setitem key value d'
  end.

(** [d.update(other)]: every entry of [other] is assigned in [d], in the
    order of [other]. *)
Definition update {V : Type} (d other : t V) : t V :=
  fold_left (fun acc kv => setitem (fst kv) (snd kv) acc) other d.

End PyDict.

(** ** The field *)

Module DurationField.

(** The one attribute the class adds to a Django [Field]. *)
Record t : Type := mk { precision : string }.

(** The tuple that [__init__] tests the argument against. *)
Definition supported : list string := ["microseconds"; "seconds"; "days"].

(** Reading [self.precision] on an instance whose attribute may not have
    been assigned yet. *)
Definition read_precision (attr : option string) : result string :=
  match attr with
  | Some p => Ok p
  | None => Raise AttributeError
  end.

(** [__init__(self, precision)]. The message of the exception is built
    from [self.precision], which is read before it is assigned. *)
Definition __init__ (precision : string) : result t :=
  let unassigned : option string := None in
  if negb (existsb (String.eqb precision) supported) then
    _ <- read_precision unassigned ;;
    Raise NotImplementedError
  else
    Ok (mk precision).

Definition get_internal_type (self : t) : string := "DurationField".

Definition db_type (self : t) : string := "bigint".

(** [get_db_prep_value(self, value)]. *)
Definition get_db_prep_value (self : t) (value : PyValue) : result PyValue :=
  match value with
  | PyNone => Ok PyNone
  | _ =>
    value <- match value with
             | PyInt n =>
               fmap PyTimedelta (Timedelta.of_kwarg (precision self) n)
             | _ => Ok value
             end ;;
    value <- py_abs value ;;
    if String.eqb (precision self) "microseconds" then
      d <- getattr Timedelta.days value ;;
      s <- getattr Timedelta.seconds value ;;
      us <- getattr Timedelta.microseconds value ;;
      Ok (PyInt (d * 24 * 3600 * 1000000 + s * 1000000 + us))
    else if String.eqb (precision self) "seconds" then
      d <- getattr Timedelta.days value ;;
      s <- getattr Timedelta.seconds value ;;
      Ok (PyInt (d * 24 * 3600 + s))
    else if String.eqb (precision self) "days" then
      fmap PyInt (getattr Timedelta.days value)
    else
      Raise NotImplementedError
  end.

Definition get_db_prep_save (self : t) (value : PyValue) : result PyValue :=
  get_db_prep_value self value.

Section Decoder.

(** [durationfield.utils.timestring.str_to_timedelta(td_str, precision)],
    the string parser that [to_python] imports. *)
Variable str_to_timedelta : string -> string -> result PyValue.

(** [to_python(self, value)]. *)
Definition to_python (self : t) (value : PyValue) : result PyValue :=
  match value with
  | PyNone => Ok value
  | PyTimedelta _ => Ok value
  | PyInt n => fmap PyTimedelta (Timedelta.of_kwarg (precision self) n)
  | _ =>
    let str_val := smart_text value in
    match str_val with
    | PyText s =>
      match str_to_timedelta s (precision self) with
      | Raise ValueError => Raise (ValidationError invalid)
      | r => r
      end
    | _ => Raise (ValidationError unknown_type)
    end
  end.

End Decoder.

(** [value_to_string(self, obj)], on the value that
    [_get_val_from_obj] reads from [obj]. *)
Definition value_to_string (self : t) (value : PyValue) : PyValue :=
  smart_text value.

(** What Django's [Field.deconstruct] returns: the name of the field, the
    import path of its class and the arguments that rebuild it. *)
Record deconstruction : Type :=
  mk_deconstruction {
    name : string;
    path : string;
    args : list PyValue;
    kwargs : PyDict.t PyValue }.

(** [deconstruct(self)], on the tuple that the inherited [deconstruct]
    returns. The attribute [precision] is a string here, so the test
    that it is not [None] holds. *)
Definition deconstruct (inherited : deconstruction) (self : t)
  : deconstruction :=
  mk_deconstruction (name inherited) (path inherited) (args inherited)
    (PyDict.setitem "precision" (PyText (precision self)) (kwargs inherited)).

Section Formfield.

(** The values of the keyword arguments of a form field, the form class
    [durationfield.forms.fields.DurationField] among them, and what the
    inherited [formfield] builds from the keyword arguments. *)
Variables V FormField : Type.
Variable FDurationField : V.
Variable inherited_formfield : PyDict.t V -> FormField.

(** The dictionary [defaults] of [formfield] after [update]. *)
Definition formfield_defaults (kwargs : PyDict.t V) : PyDict.t V :=
  PyDict.update [("form_class", FDurationField)] kwargs.

(** [formfield(self, **kwargs)]. *)
Definition formfield (self : t) (kwargs : PyDict.t V) : FormField :=
  inherited_formfield (formfield_defaults kwargs).

End Formfield.

End DurationField.

(** ** The string parser *)

Module Timestring.

(** Modelled from the spec: the units of the duration grammar, with
    their length in microseconds. The module
    [durationfield.utils.timestring] is not among the sources. *)
Definition units : list (string * Z) :=
  [ ("w", 7 * 86400 * 1000000); ("d", 86400 * 1000000);
    ("h", 3600 * 1000000); ("min", 60 * 1000000); ("s", 1000000);
    ("ms", 1000); ("us", 1) ].

Fixpoint lookup (u : string) (l : list (string * Z)) : option Z :=
  match l with
  | [] => None
  | (k, v) :: l' => if String.eqb u k then Some v else lookup u l'
  end.

Definition is_space (c : ascii) : bool :=
  let n := nat_of_ascii c in
  Nat.eqb n 32 || (Nat.leb 9 n && Nat.leb n 13).

Definition is_alpha (c : ascii) : bool :=
  let n := nat_of_ascii c in
  (Nat.leb 65 n && Nat.leb n 90) || (Nat.leb 97 n && Nat.leb n 122).

Definition digit (c : ascii) : option Z :=
  let n := nat_of_ascii c in
  if Nat.leb 48 n && Nat.leb n 57 then Some (Z.of_nat n - 48) else None.

(** Where the scanner is inside the token sequence: between two tokens,
    in the integer digits of an amount, just after its decimal point, in
    its decimal digits ([num / den] is the amount read so far), or in the
    letters of its unit. *)
Inductive phase : Type :=
| Gap
| IntPart (num : Z)
| Point (num : Z)
| FracPart (num den : Z)
| UnitPart (num den : Z) (unit : string).

Record state : Type :=
  mk { seen : list string; total : Z; where_ : phase }.

(** A finished token adds its span to the total, a fraction of a
    microsecond being cut off; an unknown or repeated unit is refused. *)
Definition close (seen : list string) (total num den : Z) (unit : string)
  : option (list string * Z) :=
  match lookup unit units with
  | None => None
  | Some scale =>
    if existsb (String.eqb unit) seen then None
    else Some (unit :: seen, total + num * scale / den)
  end.

Definition step (st : state) (c : ascii) : option state :=
  let keep := mk (seen st) (total st) in
  match where_ st with
  | Gap =>
    if is_space c then Some st
    else option_map (fun d => keep (IntPart d)) (digit c)
  | IntPart n =>
    match digit c with
    | Some d => Some (keep (IntPart (10 * n + d)))
    | None =>
      if Ascii.eqb c "." then Some (keep (Point n))
      else if is_alpha c then Some (keep (UnitPart n 1 (String c "")))
      else None
    end
  | Point n => option_map (fun d => keep (FracPart (10 * n + d) 10)) (digit c)
  | FracPart n den =>
    match digit c with
    | Some d => Some (keep (FracPart (10 * n + d) (10 * den)))
    | None =>
      if is_alpha c then Some (keep (UnitPart n den (String c ""))) else None
    end
  | UnitPart n den u =>
    if is_alpha c then Some (keep (UnitPart n den (u ++ String c "")))
    else
      match close (seen st) (total st) n den u with
      | None => None
      | Some (seen', total') =>
        if is_space c then Some (mk seen' total' Gap)
        else option_map (fun d => mk seen' total' (IntPart d)) (digit c)
      end
  end.

Fixpoint scan (st : state) (text : string) : option state :=
  match text with
  | EmptyString => Some st
  | String c rest =>
    match step st c with
    | Some st' => scan st' rest
    | None => None
    end
  end.

(** The end of the input: it must fall after a complete token. *)
Definition finish (st : state) : option Z :=
  match where_ st with
  | Gap => match seen st with [] => None | _ => Some (total st) end
  | UnitPart n den u =>
    option_map snd (close (seen st) (total st) n den u)
  | _ => None
  end.

Fixpoint skip_space (text : string) : string :=
  match text with
  | String c rest => if is_space c then skip_space rest else text
  | EmptyString => text
  end.

(** A leading minus sign is accepted and dropped. *)
Definition drop_sign (text : string) : string :=
  match text with
  | String "-" rest => rest
  | _ => text
  end.

(** Modelled from the spec: [parse(text)] of the duration grammar, the
    body of [str_to_timedelta], which is not among the sources. A text
    outside the grammar raises [ValueError]; the value is the sum of the
    tokens, normalized. *)
Definition parse (text : string) : result Timedelta.t :=
  match scan (mk [] 0 Gap) (drop_sign (skip_space text)) with
  | None => Raise ValueError
  | Some st =>
    match finish st with
    | None => Raise ValueError
    | Some total => Timedelta.new 0 0 total
    end
  end.

(** Modelled from the spec: [str_to_timedelta(td_str, precision)] as the
    field calls it; the grammar does not depend on the precision. *)
Definition str_to_timedelta (td_str precision : string) : result PyValue :=
  fmap PyTimedelta (parse td_str).

End Timestring.

(** ** Units of the three precisions *)

(** The length in microseconds of one unit of a precision, as
    [timedelta] reads the keyword of that name. *)
Definition unit_microseconds (precision : string) : Z :=
  if String.eqb precision "days" then 24 * 3600 * 1000000
  else if String.eqb precision "seconds" then 1000000
  else 1.

(** The spans a [timedelta] can hold, counted in units of a precision:
    from [-999999999] days up to, and not including, [1000000000] days. *)
Definition in_range (precision : string) (n : Z) : Prop :=
  - Timedelta.max_days * (24 * 3600 * 1000000)
  <= n * unit_microseconds precision
  < (Timedelta.max_days + 1) * (24 * 3600 * 1000000).

(** ** Proof steps for [divmod] arithmetic *)

Ltac divmod a b :=
  let q := fresh "q" in
  let r := fresh "r" in
  let Hq := fresh "Hq" in
  let Hr := fresh "Hr" in
  pose proof (Z.div_mod a b ltac:(lia)) as Hq;
  pose proof (Z.mod_pos_bound a b ltac:(lia)) as Hr;
  set (q := a / b) in *; set (r := a mod b) in *;
  clearbody q r.

Ltac unfold_td :=
  unfold Timedelta.valid, Timedelta.total_microseconds, Timedelta.max_days in *;
  cbn [Timedelta.days Timedelta.seconds Timedelta.microseconds] in *;
  change (24 * 3600) with 86400 in *.

(** ** The models on examples *)

Example timedelta_to_string :
  Timedelta.to_string (Timedelta.mk (-1) 86395 7) = "-1 day, 23:59:55.000007".
Proof. reflexivity. Qed.

Example init_unknown_precision :
  DurationField.__init__ "hours" = Raise AttributeError.
Proof. reflexivity. Qed.

Example parse_all_units :
  fmap Timedelta.total_microseconds (Timestring.parse "1w2d3h4min5s6ms7us")
  = Ok (9 * 86400000000 + 3 * 3600000000 + 4 * 60000000 + 5000000 + 6000 + 7).
Proof. reflexivity. Qed.

Example parse_spaced : Timestring.parse " -1.5h 30s " = Ok (Timedelta.mk 0 5430 0).
Proof. reflexivity. Qed.

Example parse_unknown_unit : Timestring.parse "5 xyz" = Raise ValueError.
Proof. reflexivity. Qed.

Example parse_empty : Timestring.parse "" = Raise ValueError.
Proof. reflexivity. Qed.

Example parse_repeated_unit : Timestring.parse "1s 2s" = Raise ValueError.
Proof. reflexivity. Qed.

Example parse_float_text : Timestring.parse "3.14" = Raise ValueError.
Proof. reflexivity. Qed.

(** ** Arithmetic of [timedelta] *)

Lemma new_ok (d s us : Z) :
  - Timedelta.max_days * 86400000000
  <= (d * 86400 + s) * 1000000 + us
  < (Timedelta.max_days + 1) * 86400000000 ->
  exists v, Timedelta.new d s us = Ok v /\ Timedelta.valid v
            /\ Timedelta.total_microseconds v = (d * 86400 + s) * 1000000 + us.
Proof.
  intros H. unfold Timedelta.new. change (24 * 3600) with 86400.
  unfold Timedelta.max_days in *.
  divmod us 1000000. divmod (s + q) 86400.
  destruct (Z.gtb_spec (Z.abs (d + q0)) 999999999) as [Hgt | Hle].
  - exfalso. lia.
  - eexists. split; [reflexivity |]. unfold_td. lia.
Qed.

Lemma valid_total_inj (v w : Timedelta.t) :
  Timedelta.valid v -> Timedelta.valid w ->
  Timedelta.total_microseconds v = Timedelta.total_microseconds w -> v = w.
Proof.
  destruct v as [d s u], w as [d' s' u']. unfold_td. intros Hv Hw H.
  assert (d = d') by lia. assert (s = s') by lia. assert (u = u') by lia.
  congruence.
Qed.

Lemma valid_in_bounds (v : Timedelta.t) :
  Timedelta.valid v ->
  - Timedelta.max_days * 86400000000
  <= Timedelta.total_microseconds v
  < (Timedelta.max_days + 1) * 86400000000.
Proof. destruct v. unfold_td. lia. Qed.

Lemma valid_sign (v : Timedelta.t) :
  Timedelta.valid v ->
  (0 <= Timedelta.days v <-> 0 <= Timedelta.total_microseconds v).
Proof. destruct v. unfold_td. lia. Qed.

Lemma abs_ok (v : Timedelta.t) :
  Timedelta.valid v ->
  exists w, Timedelta.abs v = Ok w /\ Timedelta.valid w
            /\ 0 <= Timedelta.days w
            /\ Timedelta.total_microseconds w
               = Z.abs (Timedelta.total_microseconds v).
Proof.
  intros Hv. unfold Timedelta.abs.
  destruct (Z.ltb_spec (Timedelta.days v) 0) as [Hneg | Hpos].
  - unfold Timedelta.neg.
    destruct (new_ok (- Timedelta.days v) (- Timedelta.seconds v)
                     (- Timedelta.microseconds v)) as (w & Hw & Hval & Htot).
    { destruct v. unfold_td. lia. }
    exists w. split; [exact Hw |]. split; [exact Hval |].
    assert (Ht : Timedelta.total_microseconds w
                 = Z.abs (Timedelta.total_microseconds v)).
    { rewrite Htot. destruct v. unfold_td. lia. }
    split; [| exact Ht]. apply valid_sign; [exact Hval | lia].
  - exists v. split; [reflexivity |]. split; [exact Hv |].
    split; [exact Hpos |].
    apply valid_sign in Hpos; [lia | exact Hv].
Qed.

Lemma abs_nonneg (v : Timedelta.t) :
  0 <= Timedelta.days v -> Timedelta.abs v = Ok v.
Proof.
  intros H. unfold Timedelta.abs.
  destruct (Z.ltb_spec (Timedelta.days v) 0); [lia | reflexivity].
Qed.

Lemma of_kwarg_ok (p : string) (n : Z) :
  In p DurationField.supported -> in_range p n ->
  exists v, Timedelta.of_kwarg p n = Ok v /\ Timedelta.valid v
            /\ Timedelta.total_microseconds v = n * unit_microseconds p.
Proof.
  unfold in_range, Timedelta.max_days.
  intros [<- | [<- | [<- | []]]]; cbn; intros H.
  - destruct (new_ok 0 0 n) as (v & ? & ? & ?); [unfold Timedelta.max_days; lia |].
    exists v. split; [assumption | split; [assumption | lia]].
  - destruct (new_ok 0 n 0) as (v & ? & ? & ?); [unfold Timedelta.max_days; lia |].
    exists v. split; [assumption | split; [assumption | lia]].
  - destruct (new_ok n 0 0) as (v & ? & ? & ?); [unfold Timedelta.max_days; lia |].
    exists v. split; [assumption | split; [assumption | lia]].
Qed.

(** What [get_db_prep_value] computes from the fields of the absolute
    value, per precision, is the span cut down to whole units. *)
Lemma fields_truncate (w : Timedelta.t) :
  Timedelta.valid w ->
  Timedelta.days w * 24 * 3600 * 1000000 + Timedelta.seconds w * 1000000
    + Timedelta.microseconds w
  = Timedelta.total_microseconds w / unit_microseconds "microseconds"
  /\ Timedelta.days w * 24 * 3600 + Timedelta.seconds w
     = Timedelta.total_microseconds w / unit_microseconds "seconds"
  /\ Timedelta.days w
     = Timedelta.total_microseconds w / unit_microseconds "days".
Proof.
  intros Hw. destruct w as [d s u]. cbn. unfold_td.
  split; [| split].
  - rewrite Z.div_1_r. lia.
  - apply Z.div_unique with (r := u); lia.
  - apply Z.div_unique with (r := s * 1000000 + u); lia.
Qed.

Lemma encode_timedelta (p : string) (v : Timedelta.t) :
  In p DurationField.supported -> Timedelta.valid v ->
  exists w, Timedelta.abs v = Ok w /\ Timedelta.valid w
            /\ 0 <= Timedelta.days w
            /\ Timedelta.total_microseconds w
               = Z.abs (Timedelta.total_microseconds v)
            /\ DurationField.get_db_prep_value (DurationField.mk p)
                 (PyTimedelta v)
               = Ok (PyInt (Timedelta.total_microseconds w
                            / unit_microseconds p)).
Proof.
  intros Hp Hv.
  destruct (abs_ok v Hv) as (w & Habs & Hw & Hd & Ht).
  exists w. repeat (split; [assumption |]).
  destruct (fields_truncate w Hw) as (Hus & Hs & Hdays).
  unfold DurationField.get_db_prep_value. cbn [bind py_abs fmap].
  rewrite Habs. cbn [bind getattr DurationField.precision].
  destruct Hp as [<- | [<- | [<- | []]]]; cbn [String.eqb Ascii.eqb Bool.eqb];
    cbn [bind fmap getattr]; congruence.
Qed.

(** ** The encoder [get_db_prep_value] *)

(** C1: for a normalized non-negative duration (seconds in [0, 86399],
    microseconds in [0, 999999]) the encoder returns
    [days*86400000000 + seconds*1000000 + microseconds] under
    ["microseconds"], [days*86400 + seconds] under ["seconds"] and [days]
    under ["days"]; the last two are the span divided by the unit and
    rounded down, so the finer part is cut off and never rounded. *)
Theorem encode_per_precision (v : Timedelta.t) :
  0 <= Timedelta.days v ->
  0 <= Timedelta.seconds v <= 86399 ->
  0 <= Timedelta.microseconds v <= 999999 ->
  DurationField.get_db_prep_value (DurationField.mk "microseconds")
    (PyTimedelta v)
  = Ok (PyInt (Timedelta.days v * 86400000000
               + Timedelta.seconds v * 1000000 + Timedelta.microseconds v))
  /\ DurationField.get_db_prep_value (DurationField.mk "seconds")
       (PyTimedelta v)
     = Ok (PyInt (Timedelta.days v * 86400 + Timedelta.seconds v))
  /\ DurationField.get_db_prep_value (DurationField.mk "days") (PyTimedelta v)
     = Ok (PyInt (Timedelta.days v))
  /\ Timedelta.days v * 86400 + Timedelta.seconds v
     = Timedelta.total_microseconds v / 1000000
  /\ Timedelta.days v = Timedelta.total_microseconds v / 86400000000.
Proof.
  intros Hd Hs Hu.
  unfold DurationField.get_db_prep_value. cbn [bind py_abs fmap].
  rewrite (abs_nonneg v Hd). cbn.
  destruct v as [d s u]. unfold_td.
  repeat split.
  - do 2 f_equal. lia.
  - do 2 f_equal. lia.
  - apply Z.div_unique with (r := u); lia.
  - apply Z.div_unique with (r := s * 1000000 + u); lia.
Qed.

Lemma encode_per_precision_witness :
  (0 <= 1 /\ 0 <= 30 <= 86399 /\ 0 <= 900000 <= 999999)
  /\ DurationField.get_db_prep_value (DurationField.mk "microseconds")
       (PyTimedelta (Timedelta.mk 1 30 900000))
     = Ok (PyInt 86430900000)
  /\ DurationField.get_db_prep_value (DurationField.mk "seconds")
       (PyTimedelta (Timedelta.mk 1 30 900000))
     = Ok (PyInt 86430)
  /\ DurationField.get_db_prep_value (DurationField.mk "days")
       (PyTimedelta (Timedelta.mk 1 30 900000))
     = Ok (PyInt 1).
Proof.
  split; [lia |].
  destruct (encode_per_precision (Timedelta.mk 1 30 900000))
    as (Hus & Hs & Hd & _); cbn; try lia.
  exact (conj Hus (conj Hs Hd)).
Defined.

(** C8: for every duration given to the encoder, a negative one too, and
    every supported precision, the integer returned is non-negative: it is
    the absolute value of the span, in whole units of the precision. *)
Theorem encode_nonnegative (p : string) (v : Timedelta.t) :
  In p DurationField.supported -> Timedelta.valid v ->
  exists n,
    DurationField.get_db_prep_value (DurationField.mk p) (PyTimedelta v)
    = Ok (PyInt n)
    /\ 0 <= n
    /\ n = Z.abs (Timedelta.total_microseconds v) / unit_microseconds p.
Proof.
  intros Hp Hv.
  destruct (encode_timedelta p v Hp Hv) as (w & _ & _ & _ & Ht & Henc).
  eexists. split; [exact Henc |]. rewrite Ht. split; [| reflexivity].
  apply Z.div_pos; [lia |].
  destruct Hp as [<- | [<- | [<- | []]]]; reflexivity.
Qed.

Lemma encode_nonnegative_witness :
  (In "seconds" DurationField.supported
   /\ Timedelta.valid (Timedelta.mk (-1) 86395 0))
  /\ exists n,
       DurationField.get_db_prep_value (DurationField.mk "seconds")
         (PyTimedelta (Timedelta.mk (-1) 86395 0))
       = Ok (PyInt n)
       /\ 0 <= n
       /\ n = Z.abs (Timedelta.total_microseconds (Timedelta.mk (-1) 86395 0))
              / unit_microseconds "seconds".
Proof.
  assert (Hp : In "seconds" DurationField.supported) by (right; left; reflexivity).
  assert (Hv : Timedelta.valid (Timedelta.mk (-1) 86395 0))
    by (unfold_td; lia).
  split; [exact (conj Hp Hv) |].
  exact (encode_nonnegative "seconds" (Timedelta.mk (-1) 86395 0) Hp Hv).
Defined.

Example encode_negative_five_seconds :
  DurationField.get_db_prep_value (DurationField.mk "seconds")
    (PyTimedelta (Timedelta.mk (-1) 86395 0))
  = Ok (PyInt 5).
Proof. reflexivity. Qed.

(** ** The decoder [to_python] *)

Lemma unit_microseconds_pos (p : string) : 0 < unit_microseconds p.
Proof.
  unfold unit_microseconds.
  destruct (String.eqb p "days"); [reflexivity |].
  destruct (String.eqb p "seconds"); reflexivity.
Qed.

Lemma decode_in_range
    (str_to_timedelta : string -> string -> result PyValue)
    (p : string) (n : Z) :
  In p DurationField.supported -> in_range p n ->
  exists v,
    DurationField.to_python str_to_timedelta (DurationField.mk p) (PyInt n)
    = Ok (PyTimedelta v)
    /\ Timedelta.valid v
    /\ Timedelta.total_microseconds v = n * unit_microseconds p.
Proof.
  intros Hp Hn.
  destruct (of_kwarg_ok p n Hp Hn) as (v & Hv & Hval & Ht).
  exists v. split; [| split; assumption].
  unfold DurationField.to_python.
  cbn [DurationField.precision]. rewrite Hv. reflexivity.
Qed.

(** C5: at every precision the decoder returns [None] for [None] and
    raises nothing, and so does the encoder. *)
Theorem none_is_propagated
    (str_to_timedelta : string -> string -> result PyValue)
    (self : DurationField.t) :
  DurationField.to_python str_to_timedelta self PyNone = Ok PyNone
  /\ DurationField.get_db_prep_value self PyNone = Ok PyNone.
Proof. split; reflexivity. Qed.

(** C6, amended: for every non-negative integer [n] and supported
    precision [p] such that [n] units of [p] are less than 1000000000
    days, the decoder returns the normalized non-negative duration whose
    span is exactly [n] units of [p]; and 90000000 under ["microseconds"]
    decodes to 0 days, 90 seconds, 0 microseconds. *)
Theorem decode_integer
    (str_to_timedelta : string -> string -> result PyValue)
    (p : string) (n : Z) :
  In p DurationField.supported -> 0 <= n -> in_range p n ->
  (exists v,
     DurationField.to_python str_to_timedelta (DurationField.mk p) (PyInt n)
     = Ok (PyTimedelta v)
     /\ Timedelta.valid v /\ 0 <= Timedelta.days v
     /\ Timedelta.total_microseconds v = n * unit_microseconds p)
  /\ DurationField.to_python str_to_timedelta
       (DurationField.mk "microseconds") (PyInt 90000000)
     = Ok (PyTimedelta (Timedelta.mk 0 90 0)).
Proof.
  intros Hp Hn Hr. split; [| reflexivity].
  destruct (decode_in_range str_to_timedelta p n Hp Hr) as (v & Hv & Hval & Ht).
  exists v. repeat (split; [assumption |]). split; [| exact Ht].
  apply valid_sign; [exact Hval |]. rewrite Ht.
  pose proof (unit_microseconds_pos p). nia.
Qed.

Lemma decode_integer_witness :
  (In "seconds" DurationField.supported /\ 0 <= 90061 /\ in_range "seconds" 90061)
  /\ exists v,
       DurationField.to_python Timestring.str_to_timedelta
         (DurationField.mk "seconds") (PyInt 90061)
       = Ok (PyTimedelta v)
       /\ Timedelta.valid v /\ 0 <= Timedelta.days v
       /\ Timedelta.total_microseconds v = 90061 * unit_microseconds "seconds".
Proof.
  assert (Hp : In "seconds" DurationField.supported) by (right; left; reflexivity).
  assert (Hn : 0 <= 90061) by lia.
  assert (Hr : in_range "seconds" 90061)
    by (unfold in_range, Timedelta.max_days; cbn; lia).
  split; [exact (conj Hp (conj Hn Hr)) |].
  exact (proj1 (decode_integer Timestring.str_to_timedelta "seconds" 90061
                  Hp Hn Hr)).
Defined.

(** C6 as stated fails: one thousand million days is a non-negative
    integer, and the decoder raises [OverflowError] on it. *)
Lemma decode_integer_overflows :
  DurationField.to_python Timestring.str_to_timedelta
    (DurationField.mk "days") (PyInt 1000000000)
  = Raise OverflowError
  /\ ~ exists v,
         DurationField.to_python Timestring.str_to_timedelta
           (DurationField.mk "days") (PyInt 1000000000)
         = Ok (PyTimedelta v).
Proof.
  split; [reflexivity |]. intros [v Hv]. discriminate Hv.
Qed.

(** C7: whenever the string parser rejects a string, which it signals by
    [ValueError], the decoder fails with the ["invalid"] validation error
    and with nothing else. *)
Theorem rejected_string_is_invalid
    (str_to_timedelta : string -> string -> result PyValue)
    (self : DurationField.t) (s : string) :
  str_to_timedelta s (DurationField.precision self) = Raise ValueError ->
  DurationField.to_python str_to_timedelta self (PyText s)
  = Raise (ValidationError invalid).
Proof.
  intros H. unfold DurationField.to_python. cbn [smart_text].
  rewrite H. reflexivity.
Qed.

Lemma rejected_string_is_invalid_witness :
  Timestring.str_to_timedelta "1s 2s" "seconds" = Raise ValueError
  /\ DurationField.to_python Timestring.str_to_timedelta
       (DurationField.mk "seconds") (PyText "1s 2s")
     = Raise (ValidationError invalid).
Proof.
  assert (H : Timestring.str_to_timedelta "1s 2s" "seconds" = Raise ValueError)
    by reflexivity.
  split; [exact H |].
  exact (rejected_string_is_invalid Timestring.str_to_timedelta
           (DurationField.mk "seconds") "1s 2s" H).
Defined.

(** C2 as stated fails: the float 3.14 is converted to the text ["3.14"]
    and parsed, so the error is ["invalid"], not ["unknown_type"]. *)
Lemma float_is_not_unknown_type :
  DurationField.to_python Timestring.str_to_timedelta
    (DurationField.mk "seconds") (PyFloat "3.14")
  = Raise (ValidationError invalid)
  /\ DurationField.to_python Timestring.str_to_timedelta
       (DurationField.mk "seconds") (PyFloat "3.14")
     <> Raise (ValidationError unknown_type).
Proof.
  split; [reflexivity |]. intros H. discriminate H.
Qed.

(** C2, amended: at every precision, a value that is not [None], a
    [timedelta], an integer or a string is first converted by
    [smart_text]. A float becomes its text and the decoder returns what
    the string parser returns for that text, with the ["invalid"] error in
    place of the parser's [ValueError]; the ["unknown_type"] error is
    raised only when the conversion yields no string, which is the case
    of a lazy translation proxy. *)
Theorem other_kinds_are_parsed_as_text
    (str_to_timedelta : string -> string -> result PyValue)
    (self : DurationField.t) (repr : string) :
  DurationField.to_python str_to_timedelta self (PyFloat repr)
  = match str_to_timedelta repr (DurationField.precision self) with
    | Raise ValueError => Raise (ValidationError invalid)
    | r => r
    end
  /\ DurationField.to_python str_to_timedelta self (PyFloat repr)
     = DurationField.to_python str_to_timedelta self (PyText repr)
  /\ DurationField.to_python str_to_timedelta self PyPromise
     = Raise (ValidationError unknown_type).
Proof. repeat split. Qed.

(** C3, on the code: the decoder takes no absolute value. The integer -5
    under ["seconds"] decodes to -1 day and 86395 seconds, a span of
    -5000000 microseconds, and a negative [timedelta] is returned as it
    is; the encoder is the one that applies [abs]. *)
Theorem decode_keeps_the_sign
    (str_to_timedelta : string -> string -> result PyValue) :
  DurationField.to_python str_to_timedelta (DurationField.mk "seconds")
    (PyInt (-5))
  = Ok (PyTimedelta (Timedelta.mk (-1) 86395 0))
  /\ Timedelta.total_microseconds (Timedelta.mk (-1) 86395 0) = -5000000
  /\ DurationField.to_python str_to_timedelta (DurationField.mk "seconds")
       (PyTimedelta (Timedelta.mk (-1) 86395 0))
     = Ok (PyTimedelta (Timedelta.mk (-1) 86395 0))
  /\ DurationField.get_db_prep_value (DurationField.mk "seconds")
       (PyInt (-5))
     = Ok (PyInt 5).
Proof. repeat split. Qed.

(** C4: for every normalized non-negative duration [v] and supported
    precision [p], if [v] has nothing finer than [p] (no microseconds
    under ["seconds"], no seconds and no microseconds under ["days"]),
    decoding the encoding of [v] gives [v] back. *)
Theorem decode_encode_roundtrip
    (str_to_timedelta : string -> string -> result PyValue)
    (p : string) (v : Timedelta.t) :
  In p DurationField.supported ->
  Timedelta.valid v -> 0 <= Timedelta.days v ->
  (p = "seconds" -> Timedelta.microseconds v = 0) ->
  (p = "days" -> Timedelta.seconds v = 0 /\ Timedelta.microseconds v = 0) ->
  (n <- DurationField.get_db_prep_value (DurationField.mk p) (PyTimedelta v) ;;
   DurationField.to_python str_to_timedelta (DurationField.mk p) n)
  = Ok (PyTimedelta v).
Proof.
  intros Hp Hv Hd Hsec Hday.
  destruct (encode_timedelta p v Hp Hv) as (w & Habs & _ & _ & _ & Henc).
  rewrite (abs_nonneg v Hd) in Habs. injection Habs as <-.
  rewrite Henc. cbn [bind].
  set (n := Timedelta.total_microseconds v / unit_microseconds p).
  assert (Hn : n * unit_microseconds p = Timedelta.total_microseconds v).
  { subst n. destruct (fields_truncate v Hv) as (Hus & Hs & Hdays).
    destruct Hp as [<- | [<- | [<- | []]]].
    - rewrite <- Hus. change (unit_microseconds "microseconds") with 1.
      destruct v. unfold_td. lia.
    - rewrite <- Hs. specialize (Hsec eq_refl).
      change (unit_microseconds "seconds") with 1000000.
      destruct v. unfold_td. lia.
    - rewrite <- Hdays. destruct (Hday eq_refl) as [H1 H2].
      change (unit_microseconds "days") with 86400000000.
      destruct v. unfold_td. lia. }
  assert (Hr : in_range p n).
  { unfold in_range. rewrite Hn. pose proof (valid_in_bounds v Hv).
    unfold Timedelta.max_days in *. lia. }
  destruct (decode_in_range str_to_timedelta p n Hp Hr) as (v' & Hv' & Hval & Ht).
  rewrite Hv'. do 2 f_equal.
  apply valid_total_inj; [assumption | assumption | lia].
Qed.

Lemma decode_encode_roundtrip_witness :
  (In "days" DurationField.supported
   /\ Timedelta.valid (Timedelta.mk 12 0 0)
   /\ 0 <= Timedelta.days (Timedelta.mk 12 0 0)
   /\ ("days" = "seconds" -> Timedelta.microseconds (Timedelta.mk 12 0 0) = 0)
   /\ ("days" = "days" ->
       Timedelta.seconds (Timedelta.mk 12 0 0) = 0
       /\ Timedelta.microseconds (Timedelta.mk 12 0 0) = 0))
  /\ (n <- DurationField.get_db_prep_value (DurationField.mk "days")
             (PyTimedelta (Timedelta.mk 12 0 0)) ;;
      DurationField.to_python Timestring.str_to_timedelta
        (DurationField.mk "days") n)
     = Ok (PyTimedelta (Timedelta.mk 12 0 0)).
Proof.
  assert (Hp : In "days" DurationField.supported)
    by (right; right; left; reflexivity).
  assert (Hv : Timedelta.valid (Timedelta.mk 12 0 0)) by (unfold_td; lia).
  assert (Hd : 0 <= Timedelta.days (Timedelta.mk 12 0 0)) by (cbn; lia).
  assert (Hs : "days" = "seconds"
               -> Timedelta.microseconds (Timedelta.mk 12 0 0) = 0)
    by (intros _; reflexivity).
  assert (Hy : "days" = "days"
               -> Timedelta.seconds (Timedelta.mk 12 0 0) = 0
                  /\ Timedelta.microseconds (Timedelta.mk 12 0 0) = 0)
    by (intros _; split; reflexivity).
  split; [exact (conj Hp (conj Hv (conj Hd (conj Hs Hy)))) |].
  exact (decode_encode_roundtrip Timestring.str_to_timedelta "days"
           (Timedelta.mk 12 0 0) Hp Hv Hd Hs Hy).
Defined.

(** C10, amended: for every integer [n] and supported precision [p] such
    that [n] units of [p] lie in the range of a [timedelta] (from
    -999999999 days up to, not including, 1000000000 days), encoding the
    decoding of [n] gives [|n|], which is [n] itself when [n] is not
    negative. *)
Theorem encode_decode_integer
    (str_to_timedelta : string -> string -> result PyValue)
    (p : string) (n : Z) :
  In p DurationField.supported -> in_range p n ->
  (v <- DurationField.to_python str_to_timedelta (DurationField.mk p)
          (PyInt n) ;;
   DurationField.get_db_prep_value (DurationField.mk p) v)
  = Ok (PyInt (Z.abs n))
  /\ (0 <= n -> Z.abs n = n).
Proof.
  intros Hp Hr. split; [| apply Z.abs_eq].
  destruct (decode_in_range str_to_timedelta p n Hp Hr) as (v & Hv & Hval & Ht).
  rewrite Hv. cbn [bind].
  destruct (encode_timedelta p v Hp Hval) as (w & _ & _ & _ & Hw & Henc).
  rewrite Henc, Hw, Ht. do 2 f_equal.
  pose proof (unit_microseconds_pos p) as Hu.
  rewrite Z.abs_mul, (Z.abs_eq (unit_microseconds p)) by lia.
  apply Z.div_mul. lia.
Qed.

Lemma encode_decode_integer_witness :
  (In "seconds" DurationField.supported /\ in_range "seconds" (-5))
  /\ (v <- DurationField.to_python Timestring.str_to_timedelta
             (DurationField.mk "seconds") (PyInt (-5)) ;;
      DurationField.get_db_prep_value (DurationField.mk "seconds") v)
     = Ok (PyInt (Z.abs (-5))).
Proof.
  assert (Hp : In "seconds" DurationField.supported) by (right; left; reflexivity).
  assert (Hr : in_range "seconds" (-5))
    by (unfold in_range, Timedelta.max_days; cbn; lia).
  split; [exact (conj Hp Hr) |].
  exact (proj1 (encode_decode_integer Timestring.str_to_timedelta "seconds"
                  (-5) Hp Hr)).
Defined.

(** C10 as stated fails: the round trip of one thousand million days
    raises [OverflowError] in the decoder. *)
Lemma encode_decode_integer_overflows :
  (v <- DurationField.to_python Timestring.str_to_timedelta
          (DurationField.mk "days") (PyInt 1000000000) ;;
   DurationField.get_db_prep_value (DurationField.mk "days") v)
  = Raise OverflowError
  /\ (v <- DurationField.to_python Timestring.str_to_timedelta
             (DurationField.mk "days") (PyInt 1000000000) ;;
      DurationField.get_db_prep_value (DurationField.mk "days") v)
     <> Ok (PyInt 1000000000).
Proof.
  split; [reflexivity |]. intros H. discriminate H.
Qed.

(** ** The constructor [__init__] *)

(** C9: the constructor succeeds exactly for the precisions
    ["microseconds"], ["seconds"] and ["days"], and the field it returns
    holds the precision it was given; for any other precision it raises
    an exception and returns no field. *)
Theorem init_accepts_exactly_three (p : string) :
  match DurationField.__init__ p with
  | Ok self =>
    (p = "microseconds" \/ p = "seconds" \/ p = "days")
    /\ DurationField.precision self = p
  | Raise _ =>
    ~ (p = "microseconds" \/ p = "seconds" \/ p = "days")
  end.
Proof.
  unfold DurationField.__init__, DurationField.supported.
  cbn [existsb].
  destruct (String.eqb_spec p "microseconds") as [-> | H1];
    [cbn; auto |].
  destruct (String.eqb_spec p "seconds") as [-> | H2]; [cbn; auto |].
  destruct (String.eqb_spec p "days") as [-> | H3]; [cbn; auto |].
  cbn. intros [H | [H | H]]; contradiction.
Qed.

(** ** Integers outside the range of [timedelta] *)

Lemma new_overflow (d s us : Z) :
  ~ (- Timedelta.max_days * 86400000000
     <= (d * 86400 + s) * 1000000 + us
     < (Timedelta.max_days + 1) * 86400000000) ->
  Timedelta.new d s us = Raise OverflowError.
Proof.
  intros H. unfold Timedelta.new. change (24 * 3600) with 86400.
  unfold Timedelta.max_days in *.
  divmod us 1000000. divmod (s + q) 86400.
  destruct (Z.gtb_spec (Z.abs (d + q0)) 999999999) as [Hgt | Hle].
  - reflexivity.
  - exfalso. apply H. lia.
Qed.

Lemma new_raises (d s us : Z) (e : exn) :
  Timedelta.new d s us = Raise e -> e = OverflowError.
Proof.
  unfold Timedelta.new.
  destruct (Z.abs _ >? Timedelta.max_days); intros H; congruence.
Qed.

Lemma of_kwarg_overflow (p : string) (n : Z) :
  In p DurationField.supported -> ~ in_range p n ->
  Timedelta.of_kwarg p n = Raise OverflowError.
Proof.
  unfold in_range, Timedelta.max_days.
  intros [<- | [<- | [<- | []]]]; cbn; intros H;
    apply new_overflow; unfold Timedelta.max_days; lia.
Qed.

Lemma init_ok (p : string) (self : DurationField.t) :
  DurationField.__init__ p = Ok self ->
  In p DurationField.supported /\ self = DurationField.mk p.
Proof.
  unfold DurationField.__init__.
  destruct (existsb (String.eqb p) DurationField.supported) eqn:E; cbn.
  - intros H. injection H as <-. split; [| reflexivity].
    apply existsb_exists in E. destruct E as (q & Hq & Heq).
    apply String.eqb_eq in Heq. subst q. exact Hq.
  - discriminate.
Qed.

(** X1: the decoder raises [OverflowError] on every integer that, in
    units of the precision, is outside the range of a [timedelta]. *)
Theorem decode_integer_out_of_range
    (str_to_timedelta : string -> string -> result PyValue)
    (p : string) (n : Z) :
  In p DurationField.supported -> ~ in_range p n ->
  DurationField.to_python str_to_timedelta (DurationField.mk p) (PyInt n)
  = Raise OverflowError.
Proof.
  intros Hp Hn. unfold DurationField.to_python.
  cbn [DurationField.precision].
  rewrite (of_kwarg_overflow p n Hp Hn). reflexivity.
Qed.

Lemma decode_integer_out_of_range_witness :
  (In "seconds" DurationField.supported
   /\ ~ in_range "seconds" (-86399999913600001))
  /\ DurationField.to_python Timestring.str_to_timedelta
       (DurationField.mk "seconds") (PyInt (-86399999913600001))
     = Raise OverflowError.
Proof.
  assert (Hp : In "seconds" DurationField.supported) by (right; left; reflexivity).
  assert (Hn : ~ in_range "seconds" (-86399999913600001))
    by (unfold in_range, Timedelta.max_days; cbn; lia).
  split; [exact (conj Hp Hn) |].
  exact (decode_integer_out_of_range Timestring.str_to_timedelta "seconds"
           (-86399999913600001) Hp Hn).
Defined.

(** X2: on an integer within the range the decoder keeps the sign: the
    duration it returns spans exactly [n] units, and it is negative (its
    day count is below zero) exactly when [n] is. *)
Theorem decode_integer_keeps_sign
    (str_to_timedelta : string -> string -> result PyValue)
    (p : string) (n : Z) :
  In p DurationField.supported -> in_range p n ->
  exists v,
    DurationField.to_python str_to_timedelta (DurationField.mk p) (PyInt n)
    = Ok (PyTimedelta v)
    /\ Timedelta.valid v
    /\ Timedelta.total_microseconds v = n * unit_microseconds p
    /\ (Timedelta.days v < 0 <-> n < 0).
Proof.
  intros Hp Hn.
  destruct (decode_in_range str_to_timedelta p n Hp Hn) as (v & Hv & Hval & Ht).
  exists v. repeat (split; [assumption |]).
  pose proof (valid_sign v Hval) as Hs.
  pose proof (unit_microseconds_pos p) as Hu.
  rewrite Ht in Hs. split; intros H; nia.
Qed.

Lemma decode_integer_keeps_sign_witness :
  (In "days" DurationField.supported /\ in_range "days" (-3))
  /\ exists v,
       DurationField.to_python Timestring.str_to_timedelta
         (DurationField.mk "days") (PyInt (-3))
       = Ok (PyTimedelta v)
       /\ Timedelta.valid v
       /\ Timedelta.total_microseconds v = -3 * unit_microseconds "days"
       /\ (Timedelta.days v < 0 <-> -3 < 0).
Proof.
  assert (Hp : In "days" DurationField.supported)
    by (right; right; left; reflexivity).
  assert (Hn : in_range "days" (-3))
    by (unfold in_range, Timedelta.max_days; cbn; lia).
  split; [exact (conj Hp Hn) |].
  exact (decode_integer_keeps_sign Timestring.str_to_timedelta "days" (-3)
           Hp Hn).
Defined.

(** ** Integers given to the encoder *)

Lemma encode_integer_as_timedelta (self : DurationField.t) (n : Z) :
  DurationField.get_db_prep_value self (PyInt n)
  = (v <- Timedelta.of_kwarg (DurationField.precision self) n ;;
     DurationField.get_db_prep_value self (PyTimedelta v)).
Proof.
  unfold DurationField.get_db_prep_value.
  destruct (Timedelta.of_kwarg (DurationField.precision self) n); reflexivity.
Qed.

(** X3: the encoder, given an integer within the range, reads it in
    units of the precision and returns its absolute value. *)
Theorem encode_integer (p : string) (n : Z) :
  In p DurationField.supported -> in_range p n ->
  DurationField.get_db_prep_value (DurationField.mk p) (PyInt n)
  = Ok (PyInt (Z.abs n)).
Proof.
  intros Hp Hn.
  destruct (of_kwarg_ok p n Hp Hn) as (v & Hv & Hval & Ht).
  destruct (encode_timedelta p v Hp Hval) as (w & Habs & _ & _ & Hw & Henc).
  rewrite encode_integer_as_timedelta. cbn [DurationField.precision].
  rewrite Hv. cbn [bind]. rewrite Henc, Hw, Ht. do 2 f_equal.
  pose proof (unit_microseconds_pos p) as Hu.
  rewrite Z.abs_mul, (Z.abs_eq (unit_microseconds p)) by lia.
  apply Z.div_mul. lia.
Qed.

Lemma encode_integer_witness :
  (In "microseconds" DurationField.supported /\ in_range "microseconds" (-7))
  /\ DurationField.get_db_prep_value (DurationField.mk "microseconds")
       (PyInt (-7))
     = Ok (PyInt (Z.abs (-7))).
Proof.
  assert (Hp : In "microseconds" DurationField.supported)
    by (left; reflexivity).
  assert (Hn : in_range "microseconds" (-7))
    by (unfold in_range, Timedelta.max_days; cbn; lia).
  split; [exact (conj Hp Hn) |].
  exact (encode_integer "microseconds" (-7) Hp Hn).
Defined.

(** X4: the encoder raises [OverflowError] on every integer that, in
    units of the precision, is outside the range of a [timedelta]. *)
Theorem encode_integer_out_of_range (p : string) (n : Z) :
  In p DurationField.supported -> ~ in_range p n ->
  DurationField.get_db_prep_value (DurationField.mk p) (PyInt n)
  = Raise OverflowError.
Proof.
  intros Hp Hn. unfold DurationField.get_db_prep_value.
  cbn [DurationField.precision].
  rewrite (of_kwarg_overflow p n Hp Hn). reflexivity.
Qed.

Lemma encode_integer_out_of_range_witness :
  (In "days" DurationField.supported /\ ~ in_range "days" 1000000000)
  /\ DurationField.get_db_prep_value (DurationField.mk "days")
       (PyInt 1000000000)
     = Raise OverflowError.
Proof.
  assert (Hp : In "days" DurationField.supported)
    by (right; right; left; reflexivity).
  assert (Hn : ~ in_range "days" 1000000000)
    by (unfold in_range, Timedelta.max_days; cbn; lia).
  split; [exact (conj Hp Hn) |].
  exact (encode_integer_out_of_range "days" 1000000000 Hp Hn).
Defined.

(** ** The last branch of the encoder *)

Lemma abs_raises (v : Timedelta.t) (e : exn) :
  Timedelta.abs v = Raise e -> e = OverflowError.
Proof.
  unfold Timedelta.abs, Timedelta.neg.
  destruct (Timedelta.days v <? 0); [apply new_raises | discriminate].
Qed.

Lemma encode_timedelta_any (p : string) (v : Timedelta.t) :
  In p DurationField.supported ->
  (exists n,
     DurationField.get_db_prep_value (DurationField.mk p) (PyTimedelta v)
     = Ok (PyInt n))
  \/ DurationField.get_db_prep_value (DurationField.mk p) (PyTimedelta v)
     = Raise OverflowError.
Proof.
  intros Hp. unfold DurationField.get_db_prep_value.
  cbn [py_abs fmap bind DurationField.precision].
  destruct (Timedelta.abs v) as [w | e] eqn:E; cbn [bind].
  - left. destruct Hp as [<- | [<- | [<- | []]]]; cbn; eexists; reflexivity.
  - right. rewrite (abs_raises v e E). reflexivity.
Qed.

(** X5: on a field that [__init__] has built, the encoder never reaches
    its last branch: whatever the value, it does not raise
    [NotImplementedError]. *)
Theorem encode_never_not_implemented
    (p : string) (self : DurationField.t) (value : PyValue) :
  DurationField.__init__ p = Ok self ->
  DurationField.get_db_prep_value self value <> Raise NotImplementedError.
Proof.
  intros Hinit. destruct (init_ok p self Hinit) as [Hp ->].
  destruct value as [| n | v | s | r |].
  - discriminate.
  - rewrite encode_integer_as_timedelta. cbn [DurationField.precision].
    destruct (Timedelta.of_kwarg p n) as [v | e] eqn:E; cbn [bind].
    + destruct (encode_timedelta_any p v Hp) as [[m ->] | ->]; discriminate.
    + destruct Hp as [<- | [<- | [<- | []]]]; cbn in E;
        rewrite (new_raises _ _ _ e E); discriminate.
  - destruct (encode_timedelta_any p v Hp) as [[m ->] | ->]; discriminate.
  - discriminate.
  - destruct Hp as [<- | [<- | [<- | []]]];
      destruct r as [| [[] [] [] [] [] [] [] []] r]; discriminate.
  - discriminate.
Qed.

Lemma encode_never_not_implemented_witness :
  DurationField.__init__ "seconds" = Ok (DurationField.mk "seconds")
  /\ DurationField.get_db_prep_value (DurationField.mk "seconds")
       (PyText "1h")
     <> Raise NotImplementedError.
Proof.
  assert (H : DurationField.__init__ "seconds"
              = Ok (DurationField.mk "seconds")) by reflexivity.
  split; [exact H |].
  exact (encode_never_not_implemented "seconds" (DurationField.mk "seconds")
           (PyText "1h") H).
Defined.

(** X6: on a field whose precision is none of the three, the encoder
    raises [NotImplementedError] for every duration. *)
Theorem encode_unsupported_precision (p : string) (v : Timedelta.t) :
  ~ In p DurationField.supported -> Timedelta.valid v ->
  DurationField.get_db_prep_value (DurationField.mk p) (PyTimedelta v)
  = Raise NotImplementedError.
Proof.
  intros Hp Hv. destruct (abs_ok v Hv) as (w & Habs & _).
  unfold DurationField.get_db_prep_value.
  cbn [py_abs fmap bind DurationField.precision]. rewrite Habs. cbn [bind].
  destruct (String.eqb_spec p "microseconds") as [-> | _];
    [exfalso; apply Hp; left; reflexivity |].
  destruct (String.eqb_spec p "seconds") as [-> | _];
    [exfalso; apply Hp; right; left; reflexivity |].
  destruct (String.eqb_spec p "days") as [-> | _];
    [exfalso; apply Hp; right; right; left; reflexivity |].
  reflexivity.
Qed.

Lemma encode_unsupported_precision_witness :
  (~ In "hours" DurationField.supported
   /\ Timedelta.valid (Timedelta.mk 0 7200 0))
  /\ DurationField.get_db_prep_value (DurationField.mk "hours")
       (PyTimedelta (Timedelta.mk 0 7200 0))
     = Raise NotImplementedError.
Proof.
  assert (Hp : ~ In "hours" DurationField.supported)
    by (intros [H | [H | [H | []]]]; discriminate H).
  assert (Hv : Timedelta.valid (Timedelta.mk 0 7200 0)) by (unfold_td; lia).
  split; [exact (conj Hp Hv) |].
  exact (encode_unsupported_precision "hours" (Timedelta.mk 0 7200 0) Hp Hv).
Defined.

(** X7: for every field that [__init__] has built, the encoder does not
    take text: a string raises [TypeError] (it is not parsed, as the
    decoder would), a lazy proxy too, and a float raises
    [AttributeError]. *)
Theorem encode_rejects_text (p s : string) :
  In p DurationField.supported ->
  DurationField.get_db_prep_value (DurationField.mk p) (PyText s)
  = Raise TypeError
  /\ DurationField.get_db_prep_value (DurationField.mk p) PyPromise
     = Raise TypeError
  /\ DurationField.get_db_prep_value (DurationField.mk p) (PyFloat s)
     = Raise AttributeError.
Proof.
  intros Hp. split; [reflexivity |]. split; [reflexivity |].
  destruct Hp as [<- | [<- | [<- | []]]];
    destruct s as [| [[] [] [] [] [] [] [] []] s]; reflexivity.
Qed.

Lemma encode_rejects_text_witness :
  In "days" DurationField.supported
  /\ DurationField.get_db_prep_value (DurationField.mk "days") (PyText "2d")
     = Raise TypeError.
Proof.
  assert (Hp : In "days" DurationField.supported)
    by (right; right; left; reflexivity).
  split; [exact Hp |].
  exact (proj1 (encode_rejects_text "days" "2d" Hp)).
Defined.

(** ** What the encoder keeps of a duration *)

Lemma encode_value (p : string) (v : Timedelta.t) :
  In p DurationField.supported -> Timedelta.valid v ->
  DurationField.get_db_prep_value (DurationField.mk p) (PyTimedelta v)
  = Ok (PyInt (Z.abs (Timedelta.total_microseconds v) / unit_microseconds p)).
Proof.
  intros Hp Hv.
  destruct (encode_timedelta p v Hp Hv) as (w & _ & _ & _ & Hw & Henc).
  rewrite Henc, Hw. reflexivity.
Qed.

Lemma abs_total_bound (v : Timedelta.t) :
  Timedelta.valid v ->
  Z.abs (Timedelta.total_microseconds v)
  < (Timedelta.max_days + 1) * 86400000000.
Proof.
  intros Hv. destruct (abs_ok v Hv) as (w & _ & Hw & _ & Ht).
  rewrite <- Ht. apply valid_in_bounds. exact Hw.
Qed.

Lemma encoded_in_range (p : string) (v : Timedelta.t) :
  Timedelta.valid v ->
  in_range p (Z.abs (Timedelta.total_microseconds v) / unit_microseconds p).
Proof.
  intros Hv. unfold in_range.
  pose proof (abs_total_bound v Hv) as Hb.
  pose proof (unit_microseconds_pos p) as Hu.
  pose proof (Z.abs_nonneg (Timedelta.total_microseconds v)) as Ha.
  set (T := Z.abs (Timedelta.total_microseconds v)) in *.
  pose proof (Z.mul_div_le T (unit_microseconds p) Hu) as Hle.
  pose proof (Z.div_pos T (unit_microseconds p) Ha Hu) as Hq.
  unfold Timedelta.max_days in *. nia.
Qed.

(** X8: the encoder does not see the sign: two durations of opposite
    spans are encoded as the same integer, at every precision. *)
Theorem encode_ignores_sign (p : string) (v w : Timedelta.t) :
  In p DurationField.supported -> Timedelta.valid v -> Timedelta.valid w ->
  Timedelta.total_microseconds w = - Timedelta.total_microseconds v ->
  DurationField.get_db_prep_value (DurationField.mk p) (PyTimedelta w)
  = DurationField.get_db_prep_value (DurationField.mk p) (PyTimedelta v).
Proof.
  intros Hp Hv Hw H.
  rewrite (encode_value p v Hp Hv), (encode_value p w Hp Hw), H, Z.abs_opp.
  reflexivity.
Qed.

Lemma encode_ignores_sign_witness :
  (In "seconds" DurationField.supported
   /\ Timedelta.valid (Timedelta.mk 0 5 0)
   /\ Timedelta.valid (Timedelta.mk (-1) 86395 0)
   /\ Timedelta.total_microseconds (Timedelta.mk (-1) 86395 0)
      = - Timedelta.total_microseconds (Timedelta.mk 0 5 0))
  /\ DurationField.get_db_prep_value (DurationField.mk "seconds")
       (PyTimedelta (Timedelta.mk (-1) 86395 0))
     = DurationField.get_db_prep_value (DurationField.mk "seconds")
         (PyTimedelta (Timedelta.mk 0 5 0)).
Proof.
  assert (Hp : In "seconds" DurationField.supported) by (right; left; reflexivity).
  assert (Hv : Timedelta.valid (Timedelta.mk 0 5 0)) by (unfold_td; lia).
  assert (Hw : Timedelta.valid (Timedelta.mk (-1) 86395 0))
    by (unfold_td; lia).
  assert (H : Timedelta.total_microseconds (Timedelta.mk (-1) 86395 0)
              = - Timedelta.total_microseconds (Timedelta.mk 0 5 0))
    by reflexivity.
  split; [exact (conj Hp (conj Hv (conj Hw H))) |].
  exact (encode_ignores_sign "seconds" (Timedelta.mk 0 5 0)
           (Timedelta.mk (-1) 86395 0) Hp Hv Hw H).
Defined.

(** X9: the encoder keeps the order of magnitudes: a duration that is
    no longer than another one, signs apart, is encoded as an integer
    that is no greater. *)
Theorem encode_monotone (p : string) (v w : Timedelta.t) :
  In p DurationField.supported -> Timedelta.valid v -> Timedelta.valid w ->
  Z.abs (Timedelta.total_microseconds v)
  <= Z.abs (Timedelta.total_microseconds w) ->
  exists a b,
    DurationField.get_db_prep_value (DurationField.mk p) (PyTimedelta v)
    = Ok (PyInt a)
    /\ DurationField.get_db_prep_value (DurationField.mk p) (PyTimedelta w)
       = Ok (PyInt b)
    /\ a <= b.
Proof.
  intros Hp Hv Hw H.
  rewrite (encode_value p v Hp Hv), (encode_value p w Hp Hw).
  do 2 eexists. split; [reflexivity |]. split; [reflexivity |].
  apply Z.div_le_mono; [apply unit_microseconds_pos | exact H].
Qed.

Lemma encode_monotone_witness :
  (In "days" DurationField.supported
   /\ Timedelta.valid (Timedelta.mk 1 86399 0)
   /\ Timedelta.valid (Timedelta.mk (-3) 0 0)
   /\ Z.abs (Timedelta.total_microseconds (Timedelta.mk 1 86399 0))
      <= Z.abs (Timedelta.total_microseconds (Timedelta.mk (-3) 0 0)))
  /\ exists a b,
       DurationField.get_db_prep_value (DurationField.mk "days")
         (PyTimedelta (Timedelta.mk 1 86399 0))
       = Ok (PyInt a)
       /\ DurationField.get_db_prep_value (DurationField.mk "days")
            (PyTimedelta (Timedelta.mk (-3) 0 0))
          = Ok (PyInt b)
       /\ a <= b.
Proof.
  assert (Hp : In "days" DurationField.supported)
    by (right; right; left; reflexivity).
  assert (Hv : Timedelta.valid (Timedelta.mk 1 86399 0)) by (unfold_td; lia).
  assert (Hw : Timedelta.valid (Timedelta.mk (-3) 0 0)) by (unfold_td; lia).
  assert (H : Z.abs (Timedelta.total_microseconds (Timedelta.mk 1 86399 0))
              <= Z.abs (Timedelta.total_microseconds (Timedelta.mk (-3) 0 0)))
    by (unfold_td; lia).
  split; [exact (conj Hp (conj Hv (conj Hw H))) |].
  exact (encode_monotone "days" (Timedelta.mk 1 86399 0)
           (Timedelta.mk (-3) 0 0) Hp Hv Hw H).
Defined.

(** X10: the three precisions agree: for one duration, the integer
    under ["seconds"] is the one under ["microseconds"] divided by
    1000000, and the integer under ["days"] is the one under ["seconds"]
    divided by 86400, both rounded down. *)
Theorem precisions_agree (v : Timedelta.t) :
  Timedelta.valid v ->
  exists us s d,
    DurationField.get_db_prep_value (DurationField.mk "microseconds")
      (PyTimedelta v) = Ok (PyInt us)
    /\ DurationField.get_db_prep_value (DurationField.mk "seconds")
         (PyTimedelta v) = Ok (PyInt s)
    /\ DurationField.get_db_prep_value (DurationField.mk "days")
         (PyTimedelta v) = Ok (PyInt d)
    /\ us = Z.abs (Timedelta.total_microseconds v)
    /\ s = us / 1000000
    /\ d = s / 86400.
Proof.
  intros Hv.
  rewrite (encode_value "microseconds" v), (encode_value "seconds" v),
    (encode_value "days" v);
    try exact Hv; try (cbn; tauto).
  do 3 eexists. repeat (split; [reflexivity |]).
  change (unit_microseconds "microseconds") with 1.
  change (unit_microseconds "seconds") with 1000000.
  change (unit_microseconds "days") with (1000000 * 86400).
  rewrite Z.div_1_r. split; [reflexivity |]. split; [reflexivity |].
  rewrite Z.div_div by lia. reflexivity.
Qed.

Lemma precisions_agree_witness :
  Timedelta.valid (Timedelta.mk 2 3661 250000)
  /\ exists us s d,
       DurationField.get_db_prep_value (DurationField.mk "microseconds")
         (PyTimedelta (Timedelta.mk 2 3661 250000)) = Ok (PyInt us)
       /\ DurationField.get_db_prep_value (DurationField.mk "seconds")
            (PyTimedelta (Timedelta.mk 2 3661 250000)) = Ok (PyInt s)
       /\ DurationField.get_db_prep_value (DurationField.mk "days")
            (PyTimedelta (Timedelta.mk 2 3661 250000)) = Ok (PyInt d)
       /\ us = Z.abs (Timedelta.total_microseconds
                        (Timedelta.mk 2 3661 250000))
       /\ s = us / 1000000
       /\ d = s / 86400.
Proof.
  assert (Hv : Timedelta.valid (Timedelta.mk 2 3661 250000))
    by (unfold_td; lia).
  split; [exact Hv |].
  exact (precisions_agree (Timedelta.mk 2 3661 250000) Hv).
Defined.

(** ** Saving and loading *)

(** X11: loading what was saved loses less than one unit of the
    precision: the decoder gives back a normalized non-negative duration
    of a whole number of units, no longer than the duration saved, signs
    apart, and shorter by less than one unit. *)
Theorem load_after_save
    (str_to_timedelta : string -> string -> result PyValue)
    (p : string) (v : Timedelta.t) :
  In p DurationField.supported -> Timedelta.valid v ->
  exists w,
    (n <- DurationField.get_db_prep_save (DurationField.mk p)
            (PyTimedelta v) ;;
     DurationField.to_python str_to_timedelta (DurationField.mk p) n)
    = Ok (PyTimedelta w)
    /\ Timedelta.valid w /\ 0 <= Timedelta.days w
    /\ Timedelta.total_microseconds w mod unit_microseconds p = 0
    /\ Timedelta.total_microseconds w
       <= Z.abs (Timedelta.total_microseconds v)
       < Timedelta.total_microseconds w + unit_microseconds p.
Proof.
  intros Hp Hv. unfold DurationField.get_db_prep_save.
  rewrite (encode_value p v Hp Hv). cbn [bind].
  pose proof (unit_microseconds_pos p) as Hu.
  pose proof (Z.abs_nonneg (Timedelta.total_microseconds v)) as Ha.
  set (T := Z.abs (Timedelta.total_microseconds v)) in *.
  destruct (decode_in_range str_to_timedelta p (T / unit_microseconds p) Hp
              (encoded_in_range p v Hv)) as (w & Hw & Hval & Ht).
  exists w. split; [exact Hw |]. split; [exact Hval |].
  pose proof (Z.div_pos T (unit_microseconds p) Ha Hu) as Hq.
  pose proof (Z.div_mod T (unit_microseconds p) ltac:(lia)) as Hdm.
  pose proof (Z.mod_pos_bound T (unit_microseconds p) Hu) as Hm.
  split; [apply valid_sign; [exact Hval | nia] |].
  split; [rewrite Ht; apply Z.mod_mul; lia |].
  nia.
Qed.

Lemma load_after_save_witness :
  (In "seconds" DurationField.supported
   /\ Timedelta.valid (Timedelta.mk (-1) 86398 100000))
  /\ exists w,
       (n <- DurationField.get_db_prep_save (DurationField.mk "seconds")
               (PyTimedelta (Timedelta.mk (-1) 86398 100000)) ;;
        DurationField.to_python Timestring.str_to_timedelta
          (DurationField.mk "seconds") n)
       = Ok (PyTimedelta w)
       /\ Timedelta.valid w /\ 0 <= Timedelta.days w
       /\ Timedelta.total_microseconds w mod unit_microseconds "seconds" = 0
       /\ Timedelta.total_microseconds w
          <= Z.abs (Timedelta.total_microseconds
                      (Timedelta.mk (-1) 86398 100000))
          < Timedelta.total_microseconds w + unit_microseconds "seconds".
Proof.
  assert (Hp : In "seconds" DurationField.supported) by (right; left; reflexivity).
  assert (Hv : Timedelta.valid (Timedelta.mk (-1) 86398 100000))
    by (unfold_td; lia).
  split; [exact (conj Hp Hv) |].
  exact (load_after_save Timestring.str_to_timedelta "seconds"
           (Timedelta.mk (-1) 86398 100000) Hp Hv).
Defined.

(** X12: a cycle of loading and saving does not change what is stored:
    the integer saved for a duration, decoded and saved again, is the
    same integer. *)
Theorem save_load_save
    (str_to_timedelta : string -> string -> result PyValue)
    (p : string) (v : Timedelta.t) :
  In p DurationField.supported -> Timedelta.valid v ->
  (n <- DurationField.get_db_prep_save (DurationField.mk p) (PyTimedelta v) ;;
   w <- DurationField.to_python str_to_timedelta (DurationField.mk p) n ;;
   DurationField.get_db_prep_save (DurationField.mk p) w)
  = DurationField.get_db_prep_save (DurationField.mk p) (PyTimedelta v).
Proof.
  intros Hp Hv. unfold DurationField.get_db_prep_save.
  rewrite (encode_value p v Hp Hv). cbn [bind].
  pose proof (unit_microseconds_pos p) as Hu.
  pose proof (Z.abs_nonneg (Timedelta.total_microseconds v)) as Ha.
  set (T := Z.abs (Timedelta.total_microseconds v)) in *.
  destruct (decode_in_range str_to_timedelta p (T / unit_microseconds p) Hp
              (encoded_in_range p v Hv)) as (w & Hw & Hval & Ht).
  rewrite Hw. cbn [bind]. rewrite (encode_value p w Hp Hval), Ht.
  pose proof (Z.div_pos T (unit_microseconds p) Ha Hu) as Hq.
  do 2 f_equal. rewrite Z.abs_eq by nia. apply Z.div_mul. lia.
Qed.

Lemma save_load_save_witness :
  (In "days" DurationField.supported
   /\ Timedelta.valid (Timedelta.mk 9 43200 0))
  /\ (n <- DurationField.get_db_prep_save (DurationField.mk "days")
             (PyTimedelta (Timedelta.mk 9 43200 0)) ;;
      w <- DurationField.to_python Timestring.str_to_timedelta
             (DurationField.mk "days") n ;;
      DurationField.get_db_prep_save (DurationField.mk "days") w)
     = DurationField.get_db_prep_save (DurationField.mk "days")
         (PyTimedelta (Timedelta.mk 9 43200 0)).
Proof.
  assert (Hp : In "days" DurationField.supported)
    by (right; right; left; reflexivity).
  assert (Hv : Timedelta.valid (Timedelta.mk 9 43200 0)) by (unfold_td; lia).
  split; [exact (conj Hp Hv) |].
  exact (save_load_save Timestring.str_to_timedelta "days"
           (Timedelta.mk 9 43200 0) Hp Hv).
Defined.

(** X13: the encoder leaves its own results alone: the integer it
    returns for a duration, given to it again, comes back unchanged. *)
Theorem encode_encoded (p : string) (v : Timedelta.t) :
  In p DurationField.supported -> Timedelta.valid v ->
  (n <- DurationField.get_db_prep_value (DurationField.mk p)
          (PyTimedelta v) ;;
   DurationField.get_db_prep_value (DurationField.mk p) n)
  = DurationField.get_db_prep_value (DurationField.mk p) (PyTimedelta v).
Proof.
  intros Hp Hv. rewrite (encode_value p v Hp Hv). cbn [bind].
  pose proof (unit_microseconds_pos p) as Hu.
  pose proof (Z.abs_nonneg (Timedelta.total_microseconds v)) as Ha.
  set (T := Z.abs (Timedelta.total_microseconds v)) in *.
  destruct (of_kwarg_ok p (T / unit_microseconds p) Hp
              (encoded_in_range p v Hv)) as (w & Hw & Hval & Ht).
  rewrite encode_integer_as_timedelta. cbn [DurationField.precision].
  rewrite Hw. cbn [bind]. rewrite (encode_value p w Hp Hval), Ht.
  pose proof (Z.div_pos T (unit_microseconds p) Ha Hu) as Hq.
  do 2 f_equal. rewrite Z.abs_eq by nia. apply Z.div_mul. lia.
Qed.

Lemma encode_encoded_witness :
  (In "seconds" DurationField.supported
   /\ Timedelta.valid (Timedelta.mk 0 61 999999))
  /\ (n <- DurationField.get_db_prep_value (DurationField.mk "seconds")
             (PyTimedelta (Timedelta.mk 0 61 999999)) ;;
      DurationField.get_db_prep_value (DurationField.mk "seconds") n)
     = DurationField.get_db_prep_value (DurationField.mk "seconds")
         (PyTimedelta (Timedelta.mk 0 61 999999)).
Proof.
  assert (Hp : In "seconds" DurationField.supported) by (right; left; reflexivity).
  assert (Hv : Timedelta.valid (Timedelta.mk 0 61 999999))
    by (unfold_td; lia).
  split; [exact (conj Hp Hv) |].
  exact (encode_encoded "seconds" (Timedelta.mk 0 61 999999) Hp Hv).
Defined.

(** X14: the decoder leaves its own results alone, as long as the
    string parser returns nothing but [None] and durations: decoding
    twice is decoding once, errors included, for every value. *)
Theorem decode_decoded
    (str_to_timedelta : string -> string -> result PyValue)
    (self : DurationField.t) (value : PyValue) :
  (forall s p r, str_to_timedelta s p = Ok r ->
                 r = PyNone \/ exists v, r = PyTimedelta v) ->
  (r <- DurationField.to_python str_to_timedelta self value ;;
   DurationField.to_python str_to_timedelta self r)
  = DurationField.to_python str_to_timedelta self value.
Proof.
  intros Hparser.
  assert (Htext : forall s,
    (r <- DurationField.to_python str_to_timedelta self (PyText s) ;;
     DurationField.to_python str_to_timedelta self r)
    = DurationField.to_python str_to_timedelta self (PyText s)).
  { intros s. unfold DurationField.to_python at 1 3. cbn [smart_text].
    destruct (str_to_timedelta s (DurationField.precision self))
      as [r | e] eqn:E.
    - cbn [bind]. destruct (Hparser _ _ _ E) as [-> | [v ->]]; reflexivity.
    - destruct e; reflexivity. }
  destruct value as [| n | v | s | r |]; try reflexivity.
  - unfold DurationField.to_python.
    destruct (Timedelta.of_kwarg (DurationField.precision self) n);
      reflexivity.
  - apply Htext.
  - apply (Htext r).
Qed.

Lemma parser_returns_durations (s p : string) (r : PyValue) :
  Timestring.str_to_timedelta s p = Ok r ->
  r = PyNone \/ exists v, r = PyTimedelta v.
Proof.
  unfold Timestring.str_to_timedelta, fmap.
  destruct (Timestring.parse s) as [v | e]; cbn; intros H;
    [injection H as <-; right; exists v; reflexivity | discriminate].
Qed.

Lemma decode_decoded_witness :
  (forall s p r, Timestring.str_to_timedelta s p = Ok r ->
                 r = PyNone \/ exists v, r = PyTimedelta v)
  /\ (r <- DurationField.to_python Timestring.str_to_timedelta
             (DurationField.mk "seconds") (PyText "1h 30min") ;;
      DurationField.to_python Timestring.str_to_timedelta
        (DurationField.mk "seconds") r)
     = DurationField.to_python Timestring.str_to_timedelta
         (DurationField.mk "seconds") (PyText "1h 30min").
Proof.
  split; [exact parser_returns_durations |].
  exact (decode_decoded Timestring.str_to_timedelta
           (DurationField.mk "seconds") (PyText "1h 30min")
           parser_returns_durations).
Defined.

(** ** The column type *)

(** X15: under ["seconds"] and under ["days"] every duration is encoded
    as an integer that the declared column type, a signed 64-bit
    ["bigint"], can hold: it is below 86400000000000 under ["seconds"]
    and below 1000000000 under ["days"]. *)
Theorem encoded_fits_bigint (p : string) (v : Timedelta.t) :
  p = "seconds" \/ p = "days" -> Timedelta.valid v ->
  DurationField.db_type (DurationField.mk p) = "bigint"
  /\ exists n,
       DurationField.get_db_prep_value (DurationField.mk p) (PyTimedelta v)
       = Ok (PyInt n)
       /\ 0 <= n
       /\ n * unit_microseconds p < 86400000000000000000
       /\ n < 2 ^ 63.
Proof.
  intros Hp Hv. split; [reflexivity |].
  assert (Hin : In p DurationField.supported)
    by (destruct Hp as [-> | ->]; cbn; tauto).
  rewrite (encode_value p v Hin Hv). eexists. split; [reflexivity |].
  pose proof (abs_total_bound v Hv) as Hb. unfold Timedelta.max_days in Hb.
  pose proof (Z.abs_nonneg (Timedelta.total_microseconds v)) as Ha.
  set (T := Z.abs (Timedelta.total_microseconds v)) in *.
  pose proof (unit_microseconds_pos p) as Hu.
  pose proof (Z.div_pos T (unit_microseconds p) Ha Hu) as Hq.
  pose proof (Z.mul_div_le T (unit_microseconds p) Hu) as Hle.
  split; [exact Hq |]. split; [nia |].
  change (2 ^ 63) with 9223372036854775808.
  destruct Hp as [-> | ->].
  - change (unit_microseconds "seconds") with 1000000 in *. lia.
  - change (unit_microseconds "days") with 86400000000 in *. lia.
Qed.

Lemma encoded_fits_bigint_witness :
  (("seconds" = "seconds" \/ "seconds" = "days")
   /\ Timedelta.valid (Timedelta.mk 999999999 86399 999999))
  /\ exists n,
       DurationField.get_db_prep_value (DurationField.mk "seconds")
         (PyTimedelta (Timedelta.mk 999999999 86399 999999))
       = Ok (PyInt n)
       /\ 0 <= n
       /\ n * unit_microseconds "seconds" < 86400000000000000000
       /\ n < 2 ^ 63.
Proof.
  assert (Hp : "seconds" = "seconds" \/ "seconds" = "days")
    by (left; reflexivity).
  assert (Hv : Timedelta.valid (Timedelta.mk 999999999 86399 999999))
    by (unfold_td; lia).
  split; [exact (conj Hp Hv) |].
  exact (proj2 (encoded_fits_bigint "seconds"
                  (Timedelta.mk 999999999 86399 999999) Hp Hv)).
Defined.

(** X16: under ["microseconds"] the encoder loses nothing, it returns
    the span itself, signs apart; so a duration of 106751992 days or more
    in either direction, which a [timedelta] can hold, is encoded as an
    integer of [2^63] or more, beyond a signed 64-bit ["bigint"]. *)
Theorem microseconds_exceed_bigint (v : Timedelta.t) :
  Timedelta.valid v ->
  106751992 * 86400000000 <= Z.abs (Timedelta.total_microseconds v) ->
  DurationField.db_type (DurationField.mk "microseconds") = "bigint"
  /\ DurationField.get_db_prep_value (DurationField.mk "microseconds")
       (PyTimedelta v)
     = Ok (PyInt (Z.abs (Timedelta.total_microseconds v)))
  /\ 2 ^ 63 <= Z.abs (Timedelta.total_microseconds v).
Proof.
  intros Hv H. split; [reflexivity |].
  rewrite (encode_value "microseconds" v) by (cbn; tauto || exact Hv).
  change (unit_microseconds "microseconds") with 1. rewrite Z.div_1_r.
  split; [reflexivity |].
  change (2 ^ 63) with 9223372036854775808. lia.
Qed.

Lemma microseconds_exceed_bigint_witness :
  (Timedelta.valid (Timedelta.mk (-106751992) 0 0)
   /\ 106751992 * 86400000000
      <= Z.abs (Timedelta.total_microseconds (Timedelta.mk (-106751992) 0 0)))
  /\ DurationField.get_db_prep_value (DurationField.mk "microseconds")
       (PyTimedelta (Timedelta.mk (-106751992) 0 0))
     = Ok (PyInt (Z.abs (Timedelta.total_microseconds
                           (Timedelta.mk (-106751992) 0 0))))
  /\ 2 ^ 63
     <= Z.abs (Timedelta.total_microseconds (Timedelta.mk (-106751992) 0 0)).
Proof.
  assert (Hv : Timedelta.valid (Timedelta.mk (-106751992) 0 0))
    by (unfold_td; lia).
  assert (H : 106751992 * 86400000000
              <= Z.abs (Timedelta.total_microseconds
                          (Timedelta.mk (-106751992) 0 0)))
    by (unfold_td; lia).
  split; [exact (conj Hv H) |].
  exact (proj2 (microseconds_exceed_bigint (Timedelta.mk (-106751992) 0 0)
                  Hv H)).
Defined.

(** ** Keyword arguments: [deconstruct] and [formfield] *)

Section DictFacts.

Context {V : Type}.

Lemma get_setitem_same (key : string) (value : V) (d : PyDict.t V) :
  PyDict.get key (PyDict.setitem key value d) = Some value.
Proof.
  induction d as [| [k v] d IH]; cbn.
  - rewrite String.eqb_refl. reflexivity.
  - destruct (String.eqb key k) eqn:E; cbn.
    + rewrite String.eqb_refl. reflexivity.
    + rewrite E. exact IH.
Qed.

Lemma get_setitem_other (key key' : string) (value : V) (d : PyDict.t V) :
  key' <> key ->
  PyDict.get key' (PyDict.setitem key value d) = PyDict.get key' d.
Proof.
  intros Hne.
  assert (Hkk : String.eqb key' key = false) by (apply String.eqb_neq; exact Hne).
  induction d as [| [k v] d IH]; cbn.
  - rewrite Hkk. reflexivity.
  - destruct (String.eqb_spec key k) as [-> | Hk]; cbn.
    + rewrite Hkk. reflexivity.
    + destruct (String.eqb key' k); [reflexivity | exact IH].
Qed.

Lemma get_some_in (key : string) (value : V) (d : PyDict.t V) :
  PyDict.get key d = Some value -> In key (map fst d).
Proof.
  induction d as [| [k v] d IH]; cbn; [discriminate |].
  destruct (String.eqb_spec key k) as [-> | Hk]; [left; reflexivity |].
  intros H. right. exact (IH H).
Qed.

Lemma keys_setitem (key : string) (value : V) (d : PyDict.t V) (k : string) :
  In k (map fst (PyDict.setitem key value d)) <-> k = key \/ In k (map fst d).
Proof.
  induction d as [| [k' v'] d IH]; cbn.
  - intuition congruence.
  - destruct (String.eqb_spec key k') as [-> | Hk]; cbn.
    + intuition congruence.
    + rewrite IH. intuition congruence.
Qed.

Lemma setitem_nodup (key : string) (value : V) (d : PyDict.t V) :
  NoDup (map fst d) -> NoDup (map fst (PyDict.setitem key value d)).
Proof.
  induction d as [| [k v] d IH]; cbn; intros H.
  - constructor; [intros [] | constructor].
  - inversion H as [| ? ? Hnotin Hd]; subst.
    destruct (String.eqb_spec key k) as [-> | Hk]; cbn.
    + constructor; assumption.
    + constructor; [| exact (IH Hd)].
      rewrite keys_setitem. intros [-> | Hin]; [congruence | contradiction].
Qed.

Lemma get_update (d other : PyDict.t V) (key : string) :
  NoDup (map fst other) ->
  PyDict.get key (PyDict.update d other)
  = match PyDict.get key other with
    | Some value => Some value
    | None => PyDict.get key d
    end.
Proof.
  unfold PyDict.update. revert d.
  induction other as [| [k v] other IH]; intros d Hnd; cbn; [reflexivity |].
  inversion Hnd as [| ? ? Hnotin Hother]; subst.
  rewrite (IH _ Hother).
  destruct (PyDict.get key other) as [value |] eqn:E.
  - destruct (String.eqb_spec key k) as [-> | Hk]; [| reflexivity].
    exfalso. apply Hnotin. exact (get_some_in _ _ _ E).
  - destruct (String.eqb_spec key k) as [-> | Hk].
    + apply get_setitem_same.
    + apply get_setitem_other. exact Hk.
Qed.

Lemma update_nodup (d other : PyDict.t V) :
  NoDup (map fst d) -> NoDup (map fst (PyDict.update d other)).
Proof.
  unfold PyDict.update. revert d.
  induction other as [| [k v] other IH]; intros d Hd; cbn; [exact Hd |].
  apply IH. apply setitem_nodup. exact Hd.
Qed.

End DictFacts.

(** X17: [deconstruct] records the precision under the key
    ["precision"], as a text that [__init__] accepts and from which it
    builds the same field again, whatever the inherited keyword arguments
    held under that key. *)
Theorem deconstruct_rebuilds
    (inherited : DurationField.deconstruction)
    (p : string) (self : DurationField.t) :
  DurationField.__init__ p = Ok self ->
  exists q,
    PyDict.get "precision"
      (DurationField.kwargs (DurationField.deconstruct inherited self))
    = Some (PyText q)
    /\ DurationField.__init__ q = Ok self.
Proof.
  intros Hinit. destruct (init_ok p self Hinit) as [_ ->].
  exists p. split; [| exact Hinit].
  unfold DurationField.deconstruct.
  cbn [DurationField.kwargs DurationField.precision].
  apply get_setitem_same.
Qed.

Lemma deconstruct_rebuilds_witness :
  DurationField.__init__ "days" = Ok (DurationField.mk "days")
  /\ exists q,
       PyDict.get "precision"
         (DurationField.kwargs
            (DurationField.deconstruct
               (DurationField.mk_deconstruction "length"
                  "durationfield.db.models.fields.duration.DurationField"
                  [] [("null", PyInt 1); ("precision", PyText "seconds")])
               (DurationField.mk "days")))
       = Some (PyText q)
       /\ DurationField.__init__ q = Ok (DurationField.mk "days").
Proof.
  assert (H : DurationField.__init__ "days" = Ok (DurationField.mk "days"))
    by reflexivity.
  split; [exact H |].
  exact (deconstruct_rebuilds _ "days" (DurationField.mk "days") H).
Defined.

(** X18: [deconstruct] changes nothing else: the name, the path and the
    positional arguments are the inherited ones, every inherited keyword
    argument other than ["precision"] keeps its value, no other key
    appears, and the keys stay distinct. *)
Theorem deconstruct_keeps_the_rest
    (inherited : DurationField.deconstruction) (self : DurationField.t) :
  NoDup (map fst (DurationField.kwargs inherited)) ->
  let result := DurationField.deconstruct inherited self in
  DurationField.name result = DurationField.name inherited
  /\ DurationField.path result = DurationField.path inherited
  /\ DurationField.args result = DurationField.args inherited
  /\ (forall key, key <> "precision" ->
        PyDict.get key (DurationField.kwargs result)
        = PyDict.get key (DurationField.kwargs inherited))
  /\ (forall key, In key (map fst (DurationField.kwargs result)) <->
        key = "precision"
        \/ In key (map fst (DurationField.kwargs inherited)))
  /\ NoDup (map fst (DurationField.kwargs result)).
Proof.
  intros Hnd result. subst result. unfold DurationField.deconstruct.
  cbn [DurationField.name DurationField.path DurationField.args
       DurationField.kwargs].
  repeat (split; [reflexivity |]).
  split; [intros key Hk; apply get_setitem_other; exact Hk |].
  split; [intros key; apply keys_setitem |].
  apply setitem_nodup. exact Hnd.
Qed.

Lemma deconstruct_keeps_the_rest_witness :
  NoDup (map fst [("null", PyInt 1); ("verbose_name", PyText "length")])
  /\ PyDict.get "null"
       (DurationField.kwargs
          (DurationField.deconstruct
             (DurationField.mk_deconstruction "length" "DurationField" []
                [("null", PyInt 1); ("verbose_name", PyText "length")])
             (DurationField.mk "seconds")))
     = Some (PyInt 1).
Proof.
  assert (Hnd : NoDup (map fst [("null", PyInt 1);
                                ("verbose_name", PyText "length")])).
  { cbn. constructor; [intros [H | []]; discriminate H |].
    constructor; [intros [] | constructor]. }
  split; [exact Hnd |].
  destruct (deconstruct_keeps_the_rest
              (DurationField.mk_deconstruction "length" "DurationField" []
                 [("null", PyInt 1); ("verbose_name", PyText "length")])
              (DurationField.mk "seconds") Hnd)
    as (_ & _ & _ & Hget & _).
  rewrite (Hget "null") by discriminate. reflexivity.
Defined.

(** X19: [formfield] hands to the inherited [formfield] the caller's
    keyword arguments, each with the caller's value, and the form class
    [FDurationField] under ["form_class"] only when the caller gave
    none. *)
Theorem formfield_defaults_yield
    (V FormField : Type) (FDurationField : V)
    (inherited_formfield : PyDict.t V -> FormField)
    (self : DurationField.t) (kwargs : PyDict.t V) :
  NoDup (map fst kwargs) ->
  exists defaults,
    DurationField.formfield V FormField FDurationField inherited_formfield
      self kwargs
    = inherited_formfield defaults
    /\ NoDup (map fst defaults)
    /\ forall key,
         PyDict.get key defaults
         = match PyDict.get key kwargs with
           | Some value => Some value
           | None =>
             if String.eqb key "form_class" then Some FDurationField
             else None
           end.
Proof.
  intros Hnd.
  exists (DurationField.formfield_defaults V FDurationField kwargs).
  split; [reflexivity |]. unfold DurationField.formfield_defaults.
  split.
  - apply update_nodup. cbn. constructor; [intros [] | constructor].
  - intros key. rewrite (get_update _ _ _ Hnd). reflexivity.
Qed.

Lemma formfield_defaults_yield_witness :
  NoDup (map fst [("required", 0); ("form_class", 7)])
  /\ exists defaults,
       DurationField.formfield Z (PyDict.t Z) 1 (fun d => d)
         (DurationField.mk "seconds") [("required", 0); ("form_class", 7)]
       = defaults
       /\ NoDup (map fst defaults)
       /\ forall key,
            PyDict.get key defaults
            = match PyDict.get key [("required", 0); ("form_class", 7)] with
              | Some value => Some value
              | None => if String.eqb key "form_class" then Some 1 else None
              end.
Proof.
  assert (Hnd : NoDup (map fst [("required", 0); ("form_class", 7)])).
  { cbn. constructor; [intros [H | []]; discriminate H |].
    constructor; [intros [] | constructor]. }
  split; [exact Hnd |].
  exact (formfield_defaults_yield Z (PyDict.t Z) 1 (fun d => d)
           (DurationField.mk "seconds") [("required", 0); ("form_class", 7)]
           Hnd).
Defined.
